(** * make_glyphs.py: the two pixel passes and the driver

    A shallow embedding of [scripts/make_glyphs.py].  An image is the RGBA
    buffer the script works on after [img.convert('RGBA')]: its size and the
    flat, row-major sequence of pixels that [getdata] returns.  The three
    operations of the imaging library that the passes use ([convert],
    [getdata], [putdata]) are written out on that buffer; the two passes and
    the driver follow the script statement by statement. *)

From Stdlib Require Import ZArith Lia.
From stdpp Require Import base option list strings gmap.

Local Open Scope Z_scope.

(** ** Exceptions and results *)

Inductive exn : Type :=
  | SystemExit (code : Z)
  | TypeError (msg : string)
  | FileNotFoundError (path : string)
  | UnidentifiedImageError (path : string)
  | PermissionError (path : string)
  | IndexError
  | IsADirectoryError (path : string)
  | OSError.

Inductive result (A : Type) : Type :=
  | Ok (a : A)
  | Raise (e : exn).

Arguments Ok {A} a.
Arguments Raise {A} e.

(** ** Pixels and image buffers *)

(** A pixel is the 4-tuple [(r, g, b, a)] the script destructures; the
    channels are Python integers. *)
Abbreviation pixel := (Z * Z * Z * Z)%type.

Definition red (p : pixel) : Z := let '(r, _, _, _) := p in r.
Definition green (p : pixel) : Z := let '(_, g, _, _) := p in g.
Definition blue (p : pixel) : Z := let '(_, _, b, _) := p in b.
Definition alpha (p : pixel) : Z := let '(_, _, _, a) := p in a.

(** An RGBA image: [size] is [(width, height)], [im] the pixel store in
    row-major order. *)
Record Image : Type := mkImage {
  size : nat * nat;
  im : list pixel
}.

Definition width (img : Image) : nat := fst (size img).
Definition height (img : Image) : nat := snd (size img).

(** The store of an image holds exactly [width * height] pixels. *)
Definition wf_image (img : Image) : Prop :=
  length (im img) = (width img * height img)%nat.

(** [img.convert('RGBA')] on an RGBA image: a copy with the same contents. *)
Definition convert_RGBA (img : Image) : Image :=
  {| size := size img; im := im img |}.

(** [img.getdata()]: the flat sequence of the pixels. *)
Definition getdata (img : Image) : list pixel := im img.

(** [img.putdata(data)]: copies [data] over the store from the upper left
    corner; a sequence longer than the image raises [TypeError], a shorter
    one leaves the remaining pixels as they were. *)
Definition putdata (img : Image) (data : list pixel) : result Image :=
  if (width img * height img <? length data)%nat
  then Raise (TypeError "too many data entries")
  else Ok {| size := size img; im := data ++ drop (length data) (im img) |}.

(** ** Background removal *)

(** The test of the [if] in the loop of [remove_background_to_alpha]. *)
Definition is_background (bg : Z * Z * Z) (tol : Z) (p : pixel) : bool :=
  let '(br, bg_, bb) := bg in
  let '(r, g, b, a) := p in
  (Z.abs (r - br) <=? tol) && (Z.abs (g - bg_) <=? tol)
    && (Z.abs (b - bb) <=? tol) && negb (a =? 0).

(** One iteration of the loop: the pixel appended to [out]. *)
Definition remove_background_pixel (bg : Z * Z * Z) (tol : Z) (p : pixel) : pixel :=
  let '(r, g, b, a) := p in
  if is_background bg tol p then (r, g, b, 0) else (r, g, b, a).

Definition remove_background_to_alpha
    (img : Image) (bg : Z * Z * Z) (tol : Z) : result Image :=
  let img := convert_RGBA img in
  let datas := getdata img in
  let out :=
    foldl (fun out p => out ++ [remove_background_pixel bg tol p]) [] datas in
  putdata img out.

(** The defaults of the signature: [bg=(255,255,255)], [tol=12]. *)
Definition default_bg : Z * Z * Z := (255, 255, 255).
Definition default_tol : Z := 12.

(** ** White silhouette *)

Definition silhouette_pixel (p : pixel) : pixel :=
  let '(r, g, b, a) := p in
  if a =? 0 then (255, 255, 255, 0) else (255, 255, 255, 255).

Definition to_white_silhouette (img : Image) : result Image :=
  let img := convert_RGBA img in
  let datas := getdata img in
  let out := foldl (fun out p => out ++ [silhouette_pixel p]) [] datas in
  putdata img out.

(** ** The driver *)

(** The process state the driver acts on: the files, what was printed on
    standard output (one entry per [print]), and the paths handed to
    [Image.open] so far. *)
Record world (file : Type) : Type := mkWorld {
  fs : gmap string file;
  stdout : list string;
  opened : list string
}.

Arguments mkWorld {file} fs stdout opened.
Arguments fs {file} w.
Arguments stdout {file} w.
Arguments opened {file} w.

(** Computations that read and change the process state and may raise. *)
Definition M (file A : Type) : Type := world file -> result A * world file.

Definition ret {file A : Type} (a : A) : M file A := fun w => (Ok a, w).

Definition bind {file A B : Type} (m : M file A) (k : A -> M file B) : M file B :=
  fun w =>
    match m w with
    | (Ok a, w') => k a w'
    | (Raise e, w') => (Raise e, w')
    end.

Definition raise {file A : Type} (e : exn) : M file A := fun w => (Raise e, w).

Definition lift {file A : Type} (r : result A) : M file A := fun w => (r, w).

#[global] Instance M_ret {file : Type} : MRet (M file) := @ret file.
#[global] Instance M_bind {file : Type} : MBind (M file) :=
  fun A B k m => bind m k.

(** The exit status of the interpreter when the script's [main()] ends with
    [r]: 0 on normal return, the code of [SystemExit], 1 on any other
    uncaught exception. *)
Definition exit_status {A : Type} (r : result A) : Z :=
  match r with
  | Ok _ => 0
  | Raise (SystemExit code) => code
  | Raise _ => 1
  end.

Section Driver.
(** File contents, the image codec and the path functions belong to the
    libraries the script calls; they are parameters here.  [decode] gives
    the RGBA buffer a file holds, when its pixel data can be decoded;
    [encode_png] is what [save] writes for a [.png] name; [dirname] and
    [join] are [os.path.dirname] and [os.path.join]; [writable] tells which
    paths can be written; [isdir] tells which paths are directories; and
    [identified] tells for which files [Image.open] recognises the format
    from the header.  A file that decodes is identified. *)
Variable file : Type.
Variable decode : file -> option Image.
Variable encode_png : Image -> file.
Variable dirname : string -> string.
Variable join : string -> string -> string.
Variable writable : string -> bool.
Variable isdir : string -> bool.
Variable identified : file -> bool.

Definition print (s : string) : M file unit :=
  fun w => (Ok tt, mkWorld (fs w) (stdout w ++ [s]) (opened w)).

Definition sys_exit {A : Type} (code : Z) : M file A := raise (SystemExit code).

(** [sys.argv[i]] *)
Definition argv_get (argv : list string) (i : nat) : M file string :=
  match argv !! i with
  | Some s => ret s
  | None => raise IndexError
  end.

(** [Image.open(path)] is lazy: it opens the file and identifies its format
    from the header, and leaves the pixel data to the first operation that
    needs them.  A path that holds no regular file raises
    [IsADirectoryError] or [FileNotFoundError], a file whose format is not
    identified raises [UnidentifiedImageError]; otherwise the result is the
    opened file, its pixel data not yet read. *)
Definition Image_open (path : string) : M file file :=
  fun w =>
    let w' := mkWorld (fs w) (stdout w) (opened w ++ [path]) in
    match fs w !! path with
    | None =>
        if isdir path
        then (Raise (IsADirectoryError path), w')
        else (Raise (FileNotFoundError path), w')
    | Some f =>
        match decode f with
        | Some _ => (Ok f, w')
        | None =>
            if identified f
            then (Ok f, w')
            else (Raise (UnidentifiedImageError path), w')
        end
    end.

(** A pass called on a freshly opened image: its first statement,
    [img.convert('RGBA')], decodes the pixel data and raises [OSError] when
    they are truncated or broken; the pass then runs on the decoded
    buffer. *)
Definition on_opened (base : file) (pass : Image -> result Image) : M file Image :=
  match decode base with
  | Some img => lift (pass img)
  | None => raise OSError
  end.

Definition save (img : Image) (path : string) : M file unit :=
  fun w =>
    if writable path
    then (Ok tt, mkWorld (<[path := encode_png img]> (fs w)) (stdout w) (opened w))
    else (Raise (PermissionError path), w).

Definition main (argv : list string) : M file unit :=
  (if (length argv <? 2)%nat
   then print "usage: make_glyphs.py <source_icon>" ;; sys_exit 1
   else ret tt) ;;
  src ← argv_get argv 1;
  let out_dir := dirname src in
  base ← Image_open src;
  (* 1) Transparent glyph from white background *)
  glyph ← on_opened base
            (fun img => remove_background_to_alpha img default_bg default_tol);
  save glyph (join out_dir "icon-glyph.png") ;;
  (* 2) White-only silhouette *)
  white ← lift (to_white_silhouette glyph);
  save white (join out_dir "icon-glyph-white.png").

End Driver.

Ltac unfold_main :=
  unfold main, mbind, M_bind, bind, argv_get, Image_open, on_opened, lift,
    save, ret, print, sys_exit, raise.

(** ** The scenarios of the specification, run on the embedding *)

Definition scenario_2x1 : Image :=
  mkImage (2%nat, 1%nat) [(255, 255, 255, 255); (10, 20, 30, 255)].

Definition scenario_1x1 : Image :=
  mkImage (1%nat, 1%nat) [(250, 250, 250, 0)].

(** The first scenario with other colours under the same alpha values. *)
Definition scenario_2x1_recoloured : Image :=
  mkImage (2%nat, 1%nat) [(0, 0, 0, 255); (200, 100, 50, 255)].

(** [sys.argv] when the script is started without an argument. *)
Definition usage_argv : list string := ["make_glyphs.py"].

(** ** Vocabulary for the further properties *)

(** The colour of a pixel, without its alpha. *)
Definition rgb (p : pixel) : Z * Z * Z := (red p, green p, blue p).

(** Every channel of the pixel is an 8-bit value, as [getdata] returns
    them for an RGBA image. *)
Definition pixel_8bit (p : pixel) : Prop :=
  (0 <= red p <= 255) /\ (0 <= green p <= 255)
  /\ (0 <= blue p <= 255) /\ (0 <= alpha p <= 255).

(** A 2x2 buffer with half-transparent, barely visible, just-off-white and
    already transparent pixels. *)
Definition scenario_2x2 : Image :=
  mkImage (2%nat, 2%nat)
    [(250, 250, 250, 128); (243, 255, 250, 1);
     (242, 255, 255, 255); (255, 255, 255, 0)].

(** A buffer that is already a silhouette. *)
Definition scenario_silhouette : Image :=
  mkImage (2%nat, 1%nat) [(255, 255, 255, 0); (255, 255, 255, 255)].

(** A run of the script on [icon.png] in the current directory: files hold
    decoded images, every directory name is empty and joining with the
    empty directory gives the file name. *)
Definition demo_argv : list string := ["make_glyphs.py"; "icon.png"].
Definition demo_world : world Image :=
  mkWorld {[ "icon.png" := scenario_2x1 ]} [] [].
(** The same directory when the source is already called
    [icon-glyph.png]. *)
Definition demo_glyph_world : world Image :=
  mkWorld {[ "icon-glyph.png" := scenario_2x1 ]} [] [].
Definition demo_decode (f : Image) : option Image := Some f.
Definition demo_encode (img : Image) : Image := img.
Definition demo_dirname (path : string) : string := "".
Definition demo_join (dir name : string) : string := String.append dir name.
Definition demo_writable (path : string) : bool := true.
Definition demo_isdir (path : string) : bool := false.
Definition demo_identified (f : Image) : bool := true.

(** The same run when only the glyph can be written, and when nothing
    can. *)
Definition demo_glyph_only (path : string) : bool :=
  String.eqb path "icon-glyph.png".
Definition demo_read_only (path : string) : bool := false.

Example scenario_2x1_glyph :
  remove_background_to_alpha scenario_2x1 default_bg default_tol
  = Ok (mkImage (2%nat, 1%nat) [(255, 255, 255, 0); (10, 20, 30, 255)]).
Proof. reflexivity. Qed.

Example scenario_2x1_white :
  to_white_silhouette (mkImage (2%nat, 1%nat) [(255, 255, 255, 0); (10, 20, 30, 255)])
  = Ok (mkImage (2%nat, 1%nat) [(255, 255, 255, 0); (255, 255, 255, 255)]).
Proof. reflexivity. Qed.

Example scenario_1x1_glyph :
  remove_background_to_alpha scenario_1x1 default_bg default_tol = Ok scenario_1x1.
Proof. reflexivity. Qed.

Example scenario_1x1_white :
  to_white_silhouette scenario_1x1 = Ok (mkImage (1%nat, 1%nat) [(255, 255, 255, 0)]).
Proof. reflexivity. Qed.

(** ** The loops as maps *)

Section Loops.
Context {A B : Type} (f : A -> B).

(** A loop that appends [f p] for each [p] builds the mapped list behind
    whatever was accumulated before. *)
Lemma foldl_append_fmap (acc : list B) (l : list A) :
  foldl (fun out p => out ++ [f p]) acc l = acc ++ (f <$> l).
Proof.
  revert acc. induction l as [|x l IH]; intros acc; simpl.
  - by rewrite app_nil_r.
  - rewrite IH. by rewrite <- app_assoc.
Qed.

Lemma foldl_append_nil (l : list A) :
  foldl (fun out p => out ++ [f p]) [] l = f <$> l.
Proof. apply foldl_append_fmap. Qed.
End Loops.

(** Writing back as many pixels as the image holds replaces the store. *)
Lemma putdata_full (img : Image) (data : list pixel) :
  wf_image img ->
  length data = length (im img) ->
  putdata img data = Ok (mkImage (size img) data).
Proof.
  intros Hwf Hlen. unfold putdata.
  rewrite <- Hwf, Hlen.
  destruct (Nat.ltb_spec (length (im img)) (length (im img))) as [?|_]; [lia|].
  by rewrite drop_all, app_nil_r.
Qed.

Lemma convert_RGBA_id (img : Image) : convert_RGBA img = img.
Proof. by destruct img. Qed.

(** Both passes are pixelwise maps over the store. *)
Lemma remove_background_to_alpha_fmap (img : Image) (bg : Z * Z * Z) (tol : Z) :
  wf_image img ->
  remove_background_to_alpha img bg tol
  = Ok (mkImage (size img) (remove_background_pixel bg tol <$> im img)).
Proof.
  intros Hwf. unfold remove_background_to_alpha, getdata.
  rewrite convert_RGBA_id, foldl_append_nil.
  apply putdata_full; [done | by rewrite length_fmap].
Qed.

Lemma to_white_silhouette_fmap (img : Image) :
  wf_image img ->
  to_white_silhouette img = Ok (mkImage (size img) (silhouette_pixel <$> im img)).
Proof.
  intros Hwf. unfold to_white_silhouette, getdata.
  rewrite convert_RGBA_id, foldl_append_nil.
  apply putdata_full; [done | by rewrite length_fmap].
Qed.

Lemma wf_image_fmap (img : Image) (f : pixel -> pixel) :
  wf_image img -> wf_image (mkImage (size img) (f <$> im img)).
Proof. unfold wf_image, width, height. simpl. by rewrite length_fmap. Qed.

(** ** Pixel-level facts *)

Lemma is_background_true (bg : Z * Z * Z) (tol : Z) (p : pixel) :
  is_background bg tol p = true <->
  Z.abs (red p - bg.1.1) <= tol /\ Z.abs (green p - bg.1.2) <= tol
  /\ Z.abs (blue p - bg.2) <= tol /\ alpha p <> 0.
Proof.
  destruct bg as [[br bg_] bb], p as [[[r g] b] a]. simpl.
  rewrite !andb_true_iff, negb_true_iff, !Z.leb_le, Z.eqb_neq. tauto.
Qed.

Lemma is_background_false (bg : Z * Z * Z) (tol : Z) (p : pixel) :
  is_background bg tol p = false <->
  tol < Z.abs (red p - bg.1.1) \/ tol < Z.abs (green p - bg.1.2)
  \/ tol < Z.abs (blue p - bg.2) \/ alpha p = 0.
Proof.
  rewrite <- not_true_iff_false, is_background_true. lia.
Qed.

Lemma remove_background_pixel_hit (bg : Z * Z * Z) (tol : Z) (p : pixel) :
  is_background bg tol p = true ->
  remove_background_pixel bg tol p = (red p, green p, blue p, 0).
Proof.
  destruct p as [[[r g] b] a]. unfold remove_background_pixel. by intros ->.
Qed.

Lemma remove_background_pixel_miss (bg : Z * Z * Z) (tol : Z) (p : pixel) :
  is_background bg tol p = false ->
  remove_background_pixel bg tol p = p.
Proof.
  destruct p as [[[r g] b] a]. unfold remove_background_pixel. by intros ->.
Qed.

Lemma remove_background_pixel_twice (bg : Z * Z * Z) (tol : Z) (p : pixel) :
  remove_background_pixel bg tol (remove_background_pixel bg tol p)
  = remove_background_pixel bg tol p.
Proof.
  destruct (is_background bg tol p) eqn:Hp.
  - rewrite (remove_background_pixel_hit _ _ _ Hp).
    apply remove_background_pixel_miss, is_background_false. simpl. tauto.
  - by rewrite !(remove_background_pixel_miss _ _ _ Hp).
Qed.

Lemma silhouette_pixel_alpha0 (p : pixel) :
  alpha p = 0 -> silhouette_pixel p = (255, 255, 255, 0).
Proof. destruct p as [[[r g] b] a]. simpl. by intros ->. Qed.

Lemma silhouette_pixel_visible (p : pixel) :
  alpha p <> 0 -> silhouette_pixel p = (255, 255, 255, 255).
Proof.
  destruct p as [[[r g] b] a]. simpl. intros Ha.
  by destruct (Z.eqb_spec a 0).
Qed.

Lemma silhouette_pixel_cases (p : pixel) :
  silhouette_pixel p = (255, 255, 255, 0)
  \/ silhouette_pixel p = (255, 255, 255, 255).
Proof.
  destruct p as [[[r g] b] a]. simpl. destruct (a =? 0); auto.
Qed.

Lemma silhouette_pixel_twice (p : pixel) :
  silhouette_pixel (silhouette_pixel p) = silhouette_pixel p.
Proof. by destruct (silhouette_pixel_cases p) as [-> | ->]. Qed.

Lemma silhouette_pixel_alpha_only (p q : pixel) :
  alpha p = alpha q -> silhouette_pixel p = silhouette_pixel q.
Proof.
  destruct p as [[[r g] b] a], q as [[[r' g'] b'] a']. simpl. by intros ->.
Qed.

(** ** Background removal: what it clears and what it keeps *)

(** C1: on every image buffer the background-removal pass returns a buffer
    of the same dimensions in which a pixel whose red, green and blue are
    each within 12 of 255 and whose alpha is not 0 has alpha 0 and the RGB
    channels of the input. *)
Theorem remove_background_clears_near_white
    (img : Image) (i : nat) (r g b a : Z) :
  wf_image img ->
  getdata img !! i = Some (r, g, b, a) ->
  Z.abs (r - 255) <= 12 -> Z.abs (g - 255) <= 12 -> Z.abs (b - 255) <= 12 ->
  a <> 0 ->
  exists out : Image,
    remove_background_to_alpha img default_bg default_tol = Ok out
    /\ size out = size img
    /\ length (getdata out) = length (getdata img)
    /\ getdata out !! i = Some (r, g, b, 0).
Proof.
  intros Hwf Hi Hr Hg Hb Ha. eexists. split.
  { by apply remove_background_to_alpha_fmap. }
  unfold getdata in *. simpl. split; [done|]. split.
  { by rewrite length_fmap. }
  rewrite list_lookup_fmap, Hi. cbn [fmap option_fmap option_map].
  rewrite remove_background_pixel_hit; [done|].
  apply is_background_true. simpl. auto.
Qed.

Lemma remove_background_clears_near_white_witness :
  wf_image scenario_2x1
  /\ exists out : Image,
       remove_background_to_alpha scenario_2x1 default_bg default_tol = Ok out
       /\ size out = size scenario_2x1
       /\ length (getdata out) = length (getdata scenario_2x1)
       /\ getdata out !! 0%nat = Some (255, 255, 255, 0).
Proof.
  split; [reflexivity|].
  apply (remove_background_clears_near_white scenario_2x1 0 255 255 255 255);
    [reflexivity | reflexivity | simpl; lia | simpl; lia | simpl; lia | lia].
Defined.

(** C2: a pixel that fails the classification (some RGB channel further
    than 12 from 255, or alpha already 0) comes out of the
    background-removal pass exactly as it went in. *)
Theorem remove_background_passthrough (img : Image) (i : nat) (p : pixel) :
  wf_image img ->
  getdata img !! i = Some p ->
  12 < Z.abs (red p - 255) \/ 12 < Z.abs (green p - 255)
    \/ 12 < Z.abs (blue p - 255) \/ alpha p = 0 ->
  exists out : Image,
    remove_background_to_alpha img default_bg default_tol = Ok out
    /\ getdata out !! i = Some p.
Proof.
  intros Hwf Hi Hp. eexists. split.
  { by apply remove_background_to_alpha_fmap. }
  unfold getdata in *. simpl.
  rewrite list_lookup_fmap, Hi. cbn [fmap option_fmap option_map].
  rewrite remove_background_pixel_miss; [done|].
  by apply is_background_false.
Qed.

Lemma remove_background_passthrough_witness :
  wf_image scenario_2x1
  /\ exists out : Image,
       remove_background_to_alpha scenario_2x1 default_bg default_tol = Ok out
       /\ getdata out !! 1%nat = Some (10, 20, 30, 255).
Proof.
  split; [reflexivity|].
  apply (remove_background_passthrough scenario_2x1 1 (10, 20, 30, 255));
    [reflexivity | reflexivity | left; simpl; lia].
Defined.

(** ** Silhouette: a threshold on alpha *)

(** C3: the silhouette pass returns, for every image buffer, a buffer in
    which the pixel at each position is (255,255,255,0) when the input alpha
    there is 0 and (255,255,255,255) otherwise; every pixel of the output is
    one of these two values. *)
Theorem silhouette_two_values (img : Image) :
  wf_image img ->
  exists out : Image,
    to_white_silhouette img = Ok out
    /\ length (getdata out) = length (getdata img)
    /\ (forall (i : nat) (p : pixel), getdata img !! i = Some p ->
          (alpha p = 0 -> getdata out !! i = Some (255, 255, 255, 0))
          /\ (alpha p <> 0 -> getdata out !! i = Some (255, 255, 255, 255)))
    /\ (forall q : pixel, q ∈ getdata out ->
          q = (255, 255, 255, 0) \/ q = (255, 255, 255, 255)).
Proof.
  intros Hwf. eexists. split.
  { by apply to_white_silhouette_fmap. }
  unfold getdata. simpl. split; [by rewrite length_fmap|]. split.
  - intros i p Hi. rewrite list_lookup_fmap, Hi.
    cbn [fmap option_fmap option_map]. split; intros Ha.
    + by rewrite silhouette_pixel_alpha0.
    + by rewrite silhouette_pixel_visible.
  - intros q Hq. apply list_elem_of_fmap in Hq as (p & -> & _).
    apply silhouette_pixel_cases.
Qed.

Lemma silhouette_two_values_witness :
  wf_image scenario_2x1
  /\ exists out : Image,
       to_white_silhouette scenario_2x1 = Ok out
       /\ length (getdata out) = length (getdata scenario_2x1)
       /\ (forall (i : nat) (p : pixel), getdata scenario_2x1 !! i = Some p ->
             (alpha p = 0 -> getdata out !! i = Some (255, 255, 255, 0))
             /\ (alpha p <> 0 -> getdata out !! i = Some (255, 255, 255, 255)))
       /\ (forall q : pixel, q ∈ getdata out ->
             q = (255, 255, 255, 0) \/ q = (255, 255, 255, 255)).
Proof.
  split; [reflexivity|].
  apply (silhouette_two_values scenario_2x1). reflexivity.
Defined.

(** ** The driver without an argument *)

Section DriverFacts.
Variable file : Type.
Variable decode : file -> option Image.
Variable encode_png : Image -> file.
Variable dirname : string -> string.
Variable join : string -> string -> string.
Variable writable : string -> bool.
Variable isdir : string -> bool.
Variable identified : file -> bool.

(** C4: started without a source path, the driver prints the usage line
    on standard output and exits with status 1; the files are left as
    they were and no image is opened. *)
Theorem main_without_argument (argv : list string) (w : world file) :
  (length argv < 2)%nat ->
  main file decode encode_png dirname join writable isdir identified argv w
  = (Raise (SystemExit 1),
     mkWorld (fs w) (stdout w ++ ["usage: make_glyphs.py <source_icon>"])
             (opened w))
  /\ exit_status (main file decode encode_png dirname join writable
      isdir identified argv w).1
     = 1.
Proof.
  intros Hlen. apply Nat.ltb_lt in Hlen.
  assert (main file decode encode_png dirname join writable
      isdir identified argv w
          = (Raise (SystemExit 1),
             mkWorld (fs w)
                     (stdout w ++ ["usage: make_glyphs.py <source_icon>"])
                     (opened w))) as Hrun.
  { unfold main, mbind, M_bind, bind. rewrite Hlen. reflexivity. }
  split; [exact Hrun|]. by rewrite Hrun.
Qed.

(** Once the source has been opened and its pixel data decode, the driver
    continues with the two passes and the two saves on the decoded
    buffer. *)
Lemma main_after_open
    (argv : list string) (w : world file) (src : string) (f : file)
    (base : Image) :
  argv !! 1%nat = Some src ->
  fs w !! src = Some f ->
  decode f = Some base ->
  main file decode encode_png dirname join writable isdir identified argv w
  = (glyph ← lift (remove_background_to_alpha base default_bg default_tol);
     save file encode_png writable glyph
       (join (dirname src) "icon-glyph.png") ;;
     white ← lift (to_white_silhouette glyph);
     save file encode_png writable white
       (join (dirname src) "icon-glyph-white.png"))
      (mkWorld (fs w) (stdout w) (opened w ++ [src])).
Proof.
  intros Hsrc Hf Hdec.
  assert ((length argv <? 2)%nat = false) as Hlen.
  { apply lookup_lt_Some in Hsrc. apply Nat.ltb_ge. lia. }
  unfold main, mbind, M_bind, bind, argv_get, Image_open, on_opened, ret.
  rewrite Hlen, Hsrc. cbn beta iota. rewrite Hf, Hdec. cbn beta iota.
  by rewrite Hdec.
Qed.

(** With a readable source image and writable targets the driver stores
    the results of the two passes, the second pass running on the output
    of the first. *)
Lemma main_writes_both
    (argv : list string) (w : world file) (src : string) (f : file)
    (base : Image) :
  (2 <= length argv)%nat ->
  argv !! 1%nat = Some src ->
  fs w !! src = Some f ->
  decode f = Some base ->
  wf_image base ->
  writable (join (dirname src) "icon-glyph.png") = true ->
  writable (join (dirname src) "icon-glyph-white.png") = true ->
  exists glyph white : Image,
    remove_background_to_alpha base default_bg default_tol = Ok glyph
    /\ to_white_silhouette glyph = Ok white
    /\ main file decode encode_png dirname join writable isdir identified argv w
       = (Ok tt,
          mkWorld (<[join (dirname src) "icon-glyph-white.png" := encode_png white]>
                     (<[join (dirname src) "icon-glyph.png" := encode_png glyph]>
                        (fs w)))
                  (stdout w) (opened w ++ [src])).
Proof.
  intros Hlen Hsrc Hf Hdec Hwf Hw1 Hw2.
  apply Nat.ltb_ge in Hlen.
  pose proof (remove_background_to_alpha_fmap base default_bg default_tol Hwf)
    as Hglyph.
  pose proof (to_white_silhouette_fmap _
                (wf_image_fmap base
                   (remove_background_pixel default_bg default_tol) Hwf))
    as Hwhite.
  eexists _, _. split; [exact Hglyph|]. split; [exact Hwhite|].
  rewrite (main_after_open argv w src f base Hsrc Hf Hdec).
  unfold mbind, M_bind, bind, lift, save.
  rewrite Hglyph, Hw1. cbn [fs stdout opened].
  by rewrite Hwhite, Hw2.
Qed.
End DriverFacts.

Lemma main_without_argument_witness :
  (length usage_argv < 2)%nat
  /\ main string (fun _ => None) (fun _ => "") id String.append (fun _ => true)
      (fun _ => false) (fun _ => false)
       usage_argv (mkWorld ∅ [] [])
     = (Raise (SystemExit 1),
        mkWorld ∅ ["usage: make_glyphs.py <source_icon>"] [])
  /\ exit_status
       (main string (fun _ => None) (fun _ => "") id String.append
          (fun _ => true)
              (fun _ => false) (fun _ => false) usage_argv (mkWorld ∅ [] [])).1 = 1.
Proof.
  split; [simpl; lia|].
  apply (main_without_argument string (fun _ => None) (fun _ => "") id
           String.append (fun _ => true)
               (fun _ => false) (fun _ => false) usage_argv (mkWorld ∅ [] [])).
  simpl; lia.
Defined.

(** ** Dimensions *)

(** C5: both passes return, for every image buffer, a buffer with the
    width and height of the input and as many pixels. *)
Theorem passes_preserve_dimensions (img : Image) (bg : Z * Z * Z) (tol : Z) :
  wf_image img ->
  (exists out : Image,
     remove_background_to_alpha img bg tol = Ok out
     /\ width out = width img /\ height out = height img
     /\ length (getdata out) = length (getdata img)
     /\ wf_image out)
  /\ (exists out : Image,
        to_white_silhouette img = Ok out
        /\ width out = width img /\ height out = height img
        /\ length (getdata out) = length (getdata img)
        /\ wf_image out).
Proof.
  intros Hwf. split; eexists; (split;
    [ by (apply remove_background_to_alpha_fmap || apply to_white_silhouette_fmap)
    | unfold getdata, width, height; cbn [size im];
      rewrite length_fmap; repeat split; by apply wf_image_fmap ]).
Qed.

Lemma passes_preserve_dimensions_witness :
  wf_image scenario_2x1
  /\ (exists out : Image,
        remove_background_to_alpha scenario_2x1 default_bg default_tol = Ok out
        /\ width out = 2%nat /\ height out = 1%nat
        /\ length (getdata out) = 2%nat
        /\ wf_image out)
  /\ (exists out : Image,
        to_white_silhouette scenario_2x1 = Ok out
        /\ width out = 2%nat /\ height out = 1%nat
        /\ length (getdata out) = 2%nat
        /\ wf_image out).
Proof.
  split; [reflexivity|].
  apply (passes_preserve_dimensions scenario_2x1 default_bg default_tol).
  reflexivity.
Defined.

(** ** Idempotence and dependence on alpha alone *)

(** C6: running the silhouette pass on its own output returns that output
    again. *)
Theorem to_white_silhouette_idempotent (img : Image) :
  wf_image img ->
  exists out : Image,
    to_white_silhouette img = Ok out /\ to_white_silhouette out = Ok out.
Proof.
  intros Hwf. eexists. split; [by apply to_white_silhouette_fmap|].
  rewrite to_white_silhouette_fmap by (by apply wf_image_fmap).
  cbn [size im]. do 2 f_equal.
  rewrite <- list_fmap_compose. apply list_fmap_ext.
  intros _ p _. apply silhouette_pixel_twice.
Qed.

Lemma to_white_silhouette_idempotent_witness :
  wf_image scenario_2x1
  /\ exists out : Image,
       to_white_silhouette scenario_2x1 = Ok out
       /\ to_white_silhouette out = Ok out.
Proof.
  split; [reflexivity|].
  apply (to_white_silhouette_idempotent scenario_2x1). reflexivity.
Defined.

(** C7: two image buffers of the same dimensions whose pixels agree on
    alpha, whatever their RGB channels, have the same silhouette. *)
Theorem to_white_silhouette_alpha_only (img1 img2 : Image) :
  wf_image img1 -> wf_image img2 ->
  size img1 = size img2 ->
  alpha <$> getdata img1 = alpha <$> getdata img2 ->
  exists out : Image,
    to_white_silhouette img1 = Ok out /\ to_white_silhouette img2 = Ok out.
Proof.
  intros Hwf1 Hwf2 Hsize Halpha. eexists. split.
  { by apply to_white_silhouette_fmap. }
  rewrite (to_white_silhouette_fmap img2 Hwf2), Hsize. do 2 f_equal.
  unfold getdata in Halpha. clear Hwf1 Hwf2 Hsize.
  revert Halpha. generalize (im img1) (im img2).
  induction l as [|p l IH]; intros [|q l'] Heq; simplify_eq/=; [done|].
  f_equal; [by apply silhouette_pixel_alpha_only | by apply IH].
Qed.

Lemma to_white_silhouette_alpha_only_witness :
  wf_image scenario_2x1 /\ wf_image scenario_2x1_recoloured
  /\ exists out : Image,
       to_white_silhouette scenario_2x1 = Ok out
       /\ to_white_silhouette scenario_2x1_recoloured = Ok out.
Proof.
  split; [reflexivity|]. split; [reflexivity|].
  apply (to_white_silhouette_alpha_only scenario_2x1 scenario_2x1_recoloured);
    reflexivity.
Defined.

(** C9: running the background-removal pass, with the same background
    colour and tolerance, on its own output returns that output again. *)
Theorem remove_background_to_alpha_idempotent
    (img : Image) (bg : Z * Z * Z) (tol : Z) :
  wf_image img ->
  exists out : Image,
    remove_background_to_alpha img bg tol = Ok out
    /\ remove_background_to_alpha out bg tol = Ok out.
Proof.
  intros Hwf. eexists. split; [by apply remove_background_to_alpha_fmap|].
  rewrite remove_background_to_alpha_fmap by (by apply wf_image_fmap).
  cbn [size im]. do 2 f_equal.
  rewrite <- list_fmap_compose. apply list_fmap_ext.
  intros _ p _. apply remove_background_pixel_twice.
Qed.

Lemma remove_background_to_alpha_idempotent_witness :
  wf_image scenario_2x1
  /\ exists out : Image,
       remove_background_to_alpha scenario_2x1 default_bg default_tol = Ok out
       /\ remove_background_to_alpha out default_bg default_tol = Ok out.
Proof.
  split; [reflexivity|].
  apply (remove_background_to_alpha_idempotent scenario_2x1 default_bg default_tol).
  reflexivity.
Defined.

(** ** The two passes in sequence *)

(** C8: in the driver's sequence of the two passes, a position whose alpha
    is 0 in the glyph buffer has alpha 0 in the silhouette too; this covers
    every pixel the background-removal pass has cleared. *)
Theorem cleared_alpha_stays_cleared (img : Image) :
  wf_image img ->
  exists glyph white : Image,
    remove_background_to_alpha img default_bg default_tol = Ok glyph
    /\ to_white_silhouette glyph = Ok white
    /\ (forall (i : nat) (p : pixel),
          getdata glyph !! i = Some p -> alpha p = 0 ->
          exists q : pixel, getdata white !! i = Some q /\ alpha q = 0)
    /\ (forall (i : nat) (p : pixel),
          getdata img !! i = Some p ->
          is_background default_bg default_tol p = true ->
          (exists p' : pixel, getdata glyph !! i = Some p' /\ alpha p' = 0)
          /\ (exists q : pixel, getdata white !! i = Some q /\ alpha q = 0)).
Proof.
  intros Hwf.
  pose proof (wf_image_fmap img
                (remove_background_pixel default_bg default_tol) Hwf) as Hwf'.
  eexists _, _. split; [by apply remove_background_to_alpha_fmap|].
  split; [by apply to_white_silhouette_fmap|].
  unfold getdata. cbn [size im]. split.
  - intros i p Hi Ha. exists (255, 255, 255, 0). split; [|done].
    rewrite list_lookup_fmap, Hi. cbn [fmap option_fmap option_map].
    by rewrite silhouette_pixel_alpha0.
  - intros i p Hi Hbg.
    rewrite !list_lookup_fmap, Hi. cbn [fmap option_fmap option_map].
    rewrite (remove_background_pixel_hit _ _ _ Hbg).
    split; eexists; (split; [reflexivity|done]).
Qed.

Lemma cleared_alpha_stays_cleared_witness :
  wf_image scenario_2x1
  /\ exists glyph white : Image,
       remove_background_to_alpha scenario_2x1 default_bg default_tol = Ok glyph
       /\ to_white_silhouette glyph = Ok white
       /\ (forall (i : nat) (p : pixel),
             getdata glyph !! i = Some p -> alpha p = 0 ->
             exists q : pixel, getdata white !! i = Some q /\ alpha q = 0)
       /\ (forall (i : nat) (p : pixel),
             getdata scenario_2x1 !! i = Some p ->
             is_background default_bg default_tol p = true ->
             (exists p' : pixel, getdata glyph !! i = Some p' /\ alpha p' = 0)
             /\ (exists q : pixel, getdata white !! i = Some q /\ alpha q = 0)).
Proof.
  split; [reflexivity|].
  apply (cleared_alpha_stays_cleared scenario_2x1). reflexivity.
Defined.

(** The silhouette of the glyph, pixel by pixel in terms of the input: it
    holds (255,255,255,255) exactly when the input alpha is not 0 and some
    RGB channel is further than 12 from 255, and (255,255,255,0) in every
    other case. *)
Lemma pipeline_pixel (img : Image) (i : nat) (r g b a : Z) :
  wf_image img ->
  getdata img !! i = Some (r, g, b, a) ->
  exists (glyph white : Image) (q : pixel),
    remove_background_to_alpha img default_bg default_tol = Ok glyph
    /\ to_white_silhouette glyph = Ok white
    /\ getdata white !! i = Some q
    /\ (q = (255, 255, 255, 255) <->
        a <> 0 /\ (12 < Z.abs (r - 255) \/ 12 < Z.abs (g - 255)
                   \/ 12 < Z.abs (b - 255)))
    /\ (~ (a <> 0 /\ (12 < Z.abs (r - 255) \/ 12 < Z.abs (g - 255)
                      \/ 12 < Z.abs (b - 255))) ->
        q = (255, 255, 255, 0)).
Proof.
  intros Hwf Hi.
  pose proof (wf_image_fmap img
                (remove_background_pixel default_bg default_tol) Hwf) as Hwf'.
  eexists _, _, _. split; [by apply remove_background_to_alpha_fmap|].
  split; [by apply to_white_silhouette_fmap|].
  unfold getdata in *. cbn [size im].
  rewrite !list_lookup_fmap, Hi. cbn [fmap option_fmap option_map].
  split; [reflexivity|].
  destruct (is_background default_bg default_tol (r, g, b, a)) eqn:Hbg.
  - rewrite (remove_background_pixel_hit _ _ _ Hbg).
    rewrite silhouette_pixel_alpha0 by done.
    apply is_background_true in Hbg. unfold default_tol in Hbg. simpl in Hbg.
    split; [|done]. split; [done|lia].
  - rewrite (remove_background_pixel_miss _ _ _ Hbg).
    apply is_background_false in Hbg. unfold default_tol in Hbg. simpl in Hbg.
    destruct (Z.eq_dec a 0) as [->|Ha].
    + rewrite silhouette_pixel_alpha0 by done.
      split; [|done]. split; [done|lia].
    + rewrite silhouette_pixel_visible by done.
      split; [|lia]. split; [lia|done].
Qed.

(** ** Further properties of background removal *)

Lemma remove_background_pixel_rgb (bg : Z * Z * Z) (tol : Z) (p : pixel) :
  rgb (remove_background_pixel bg tol p) = rgb p.
Proof.
  destruct p as [[[r g] b] a]. unfold remove_background_pixel.
  by destruct (is_background bg tol (r, g, b, a)).
Qed.

Lemma remove_background_pixel_alpha (bg : Z * Z * Z) (tol : Z) (p : pixel) :
  alpha (remove_background_pixel bg tol p) = alpha p
  \/ alpha (remove_background_pixel bg tol p) = 0.
Proof.
  destruct p as [[[r g] b] a]. unfold remove_background_pixel.
  destruct (is_background bg tol (r, g, b, a)); simpl; auto.
Qed.

Lemma remove_background_pixel_fixed (bg : Z * Z * Z) (tol : Z) (p : pixel) :
  remove_background_pixel bg tol p = p <-> is_background bg tol p = false.
Proof.
  split; [|apply remove_background_pixel_miss].
  destruct (is_background bg tol p) eqn:Hbg; [|done].
  rewrite (remove_background_pixel_hit _ _ _ Hbg).
  apply is_background_true in Hbg as (_ & _ & _ & Ha).
  destruct p as [[[r g] b] a]. simpl in *. intros [= Heq]. by subst.
Qed.

Lemma fmap_fixed_Forall {A : Type} (f : A -> A) (l : list A) :
  f <$> l = l <-> Forall (fun x => f x = x) l.
Proof.
  rewrite <- (list_fmap_id l) at 2. symmetry. apply Forall_fmap_ext.
Qed.

Lemma Ok_image_inj (img : Image) (l : list pixel) :
  Ok (mkImage (size img) l) = Ok img <-> l = im img.
Proof.
  destruct img as [sz data]. simpl. split; [by intros [= ->]|by intros ->].
Qed.

(** X1: for every background colour and tolerance, background removal
    leaves the colour of every pixel as it was, and the alpha it returns at
    a position is the input alpha or 0: it never makes a pixel more
    opaque. *)
Theorem remove_background_only_lowers_alpha
    (img : Image) (bg : Z * Z * Z) (tol : Z) :
  wf_image img ->
  exists out : Image,
    remove_background_to_alpha img bg tol = Ok out
    /\ rgb <$> getdata out = rgb <$> getdata img
    /\ Forall2 (fun p q => alpha q = alpha p \/ alpha q = 0)
         (getdata img) (getdata out).
Proof.
  intros Hwf. eexists. split; [by apply remove_background_to_alpha_fmap|].
  unfold getdata. cbn [size im]. split.
  - rewrite <- list_fmap_compose. apply list_fmap_ext.
    intros _ p _. apply remove_background_pixel_rgb.
  - apply Forall2_fmap_r, Forall_Forall2_diag, Forall_forall.
    intros p _. apply remove_background_pixel_alpha.
Qed.

Lemma remove_background_only_lowers_alpha_witness :
  wf_image scenario_2x2
  /\ exists out : Image,
       remove_background_to_alpha scenario_2x2 (250, 250, 250) 5 = Ok out
       /\ rgb <$> getdata out = rgb <$> getdata scenario_2x2
       /\ Forall2 (fun p q => alpha q = alpha p \/ alpha q = 0)
            (getdata scenario_2x2) (getdata out).
Proof.
  split; [reflexivity|].
  apply (remove_background_only_lowers_alpha scenario_2x2 (250, 250, 250) 5).
  reflexivity.
Defined.

(** X2: background removal returns its input unchanged exactly when no
    pixel of the input passes the test of the loop. *)
Theorem remove_background_fixed_point
    (img : Image) (bg : Z * Z * Z) (tol : Z) :
  wf_image img ->
  remove_background_to_alpha img bg tol = Ok img
  <-> Forall (fun p => is_background bg tol p = false) (getdata img).
Proof.
  intros Hwf. rewrite remove_background_to_alpha_fmap by done.
  rewrite Ok_image_inj, fmap_fixed_Forall. unfold getdata.
  apply Forall_iff. intros p. apply remove_background_pixel_fixed.
Qed.

Lemma remove_background_fixed_point_witness :
  wf_image scenario_1x1
  /\ (remove_background_to_alpha scenario_1x1 default_bg default_tol
      = Ok scenario_1x1
      <-> Forall (fun p => is_background default_bg default_tol p = false)
            (getdata scenario_1x1)).
Proof.
  split; [reflexivity|].
  apply (remove_background_fixed_point scenario_1x1 default_bg default_tol).
  reflexivity.
Defined.

(** X3: with a negative tolerance no pixel is within tolerance of any
    background colour, and background removal returns its input. *)
Theorem remove_background_negative_tolerance
    (img : Image) (bg : Z * Z * Z) (tol : Z) :
  wf_image img ->
  tol < 0 ->
  remove_background_to_alpha img bg tol = Ok img.
Proof.
  intros Hwf Htol. rewrite remove_background_to_alpha_fmap by done.
  apply Ok_image_inj, fmap_fixed_Forall, Forall_forall. intros p _.
  apply remove_background_pixel_fixed, is_background_false. lia.
Qed.

Lemma remove_background_negative_tolerance_witness :
  wf_image scenario_2x1 /\ -1 < 0
  /\ remove_background_to_alpha scenario_2x1 default_bg (-1) = Ok scenario_2x1.
Proof.
  split; [reflexivity|]. split; [lia|].
  apply (remove_background_negative_tolerance scenario_2x1 default_bg (-1));
    [reflexivity | lia].
Defined.

(** X4: with tolerance 0 background removal is an exact colour key: a
    visible pixel is cleared when its colour equals the background colour,
    and every other pixel is kept. *)
Theorem remove_background_exact_colour
    (img : Image) (bg : Z * Z * Z) (i : nat) (p : pixel) :
  wf_image img ->
  getdata img !! i = Some p ->
  exists (out : Image) (q : pixel),
    remove_background_to_alpha img bg 0 = Ok out
    /\ getdata out !! i = Some q
    /\ (rgb p = bg /\ alpha p <> 0 -> q = (red p, green p, blue p, 0))
    /\ (~ (rgb p = bg /\ alpha p <> 0) -> q = p).
Proof.
  intros Hwf Hi. eexists _, _. split; [by apply remove_background_to_alpha_fmap|].
  unfold getdata in *. cbn [size im].
  rewrite list_lookup_fmap, Hi. cbn [fmap option_fmap option_map].
  split; [reflexivity|].
  destruct bg as [[br bg_] bb]. unfold rgb. split.
  - intros [[= <- <- <-] Ha]. apply remove_background_pixel_hit.
    apply is_background_true. simpl. rewrite !Z.sub_diag. simpl. lia.
  - intros Hno. apply remove_background_pixel_miss, is_background_false.
    simpl. destruct (Z.eq_dec (alpha p) 0) as [Ha|Ha]; [tauto|].
    destruct (Z.eq_dec (red p) br) as [Hr|Hr]; [|lia].
    destruct (Z.eq_dec (green p) bg_) as [Hg|Hg]; [|lia].
    destruct (Z.eq_dec (blue p) bb) as [Hb|Hb]; [|lia].
    exfalso. apply Hno. by rewrite Hr, Hg, Hb.
Qed.

Lemma remove_background_exact_colour_witness :
  wf_image scenario_2x1
  /\ getdata scenario_2x1 !! 1%nat = Some (10, 20, 30, 255)
  /\ exists (out : Image) (q : pixel),
       remove_background_to_alpha scenario_2x1 (10, 20, 30) 0 = Ok out
       /\ getdata out !! 1%nat = Some q
       /\ (rgb (10, 20, 30, 255) = (10, 20, 30) /\ alpha (10, 20, 30, 255) <> 0 ->
           q = (10, 20, 30, 0))
       /\ (~ (rgb (10, 20, 30, 255) = (10, 20, 30)
              /\ alpha (10, 20, 30, 255) <> 0) ->
           q = (10, 20, 30, 255)).
Proof.
  split; [reflexivity|]. split; [reflexivity|].
  apply (remove_background_exact_colour scenario_2x1 (10, 20, 30) 1
           (10, 20, 30, 255)); reflexivity.
Defined.

Lemma is_background_tol_mono (bg : Z * Z * Z) (tol tol' : Z) (p : pixel) :
  tol <= tol' ->
  is_background bg tol p = true -> is_background bg tol' p = true.
Proof.
  intros Hle. rewrite !is_background_true. lia.
Qed.

(** X5: a larger tolerance clears at least as much: every position that is
    transparent after background removal with tolerance [tol] holds the
    same transparent pixel after background removal with any [tol' >= tol]. *)
Theorem remove_background_tolerance_monotone
    (img : Image) (bg : Z * Z * Z) (tol tol' : Z) :
  wf_image img ->
  tol <= tol' ->
  exists out out' : Image,
    remove_background_to_alpha img bg tol = Ok out
    /\ remove_background_to_alpha img bg tol' = Ok out'
    /\ forall (i : nat) (p : pixel),
         getdata out !! i = Some p -> alpha p = 0 ->
         getdata out' !! i = Some p.
Proof.
  intros Hwf Hle. eexists _, _.
  split; [by apply remove_background_to_alpha_fmap|].
  split; [by apply remove_background_to_alpha_fmap|].
  unfold getdata. cbn [size im]. intros i p Hi Ha.
  rewrite list_lookup_fmap in Hi |- *.
  destruct (im img !! i) as [p0|]; [|done].
  cbn [fmap option_fmap option_map] in *. injection Hi as <-. f_equal.
  destruct (is_background bg tol p0) eqn:Hbg.
  - rewrite (remove_background_pixel_hit _ _ _ Hbg).
    apply remove_background_pixel_hit. by apply (is_background_tol_mono bg tol).
  - rewrite (remove_background_pixel_miss _ _ _ Hbg) in Ha |- *.
    apply remove_background_pixel_miss, is_background_false. tauto.
Qed.

Lemma remove_background_tolerance_monotone_witness :
  wf_image scenario_2x2 /\ 5 <= 12
  /\ exists out out' : Image,
       remove_background_to_alpha scenario_2x2 default_bg 5 = Ok out
       /\ remove_background_to_alpha scenario_2x2 default_bg 12 = Ok out'
       /\ forall (i : nat) (p : pixel),
            getdata out !! i = Some p -> alpha p = 0 ->
            getdata out' !! i = Some p.
Proof.
  split; [reflexivity|]. split; [lia|].
  apply (remove_background_tolerance_monotone scenario_2x2 default_bg 5 12);
    [reflexivity | lia].
Defined.

(** X6: on 8-bit colour channels the default test is a threshold: a pixel
    is cleared exactly when red, green and blue are all at least 243 and
    its alpha is not 0; any other pixel is kept as it is. *)
Theorem remove_background_threshold_243
    (img : Image) (i : nat) (r g b a : Z) :
  wf_image img ->
  getdata img !! i = Some (r, g, b, a) ->
  r <= 255 -> g <= 255 -> b <= 255 ->
  exists (out : Image) (q : pixel),
    remove_background_to_alpha img default_bg default_tol = Ok out
    /\ getdata out !! i = Some q
    /\ (243 <= r /\ 243 <= g /\ 243 <= b /\ a <> 0 -> q = (r, g, b, 0))
    /\ (r < 243 \/ g < 243 \/ b < 243 \/ a = 0 -> q = (r, g, b, a)).
Proof.
  intros Hwf Hi Hr Hg Hb. eexists _, _.
  split; [by apply remove_background_to_alpha_fmap|].
  unfold getdata in *. cbn [size im].
  rewrite list_lookup_fmap, Hi. cbn [fmap option_fmap option_map].
  split; [reflexivity|]. split; intros Hcase.
  - apply (remove_background_pixel_hit default_bg default_tol (r, g, b, a)).
    apply is_background_true. unfold default_tol. simpl. lia.
  - apply (remove_background_pixel_miss default_bg default_tol (r, g, b, a)).
    apply is_background_false. unfold default_tol. simpl. lia.
Qed.

Lemma remove_background_threshold_243_witness :
  wf_image scenario_2x2
  /\ getdata scenario_2x2 !! 1%nat = Some (243, 255, 250, 1)
  /\ exists (out : Image) (q : pixel),
       remove_background_to_alpha scenario_2x2 default_bg default_tol = Ok out
       /\ getdata out !! 1%nat = Some q
       /\ (243 <= 243 /\ 243 <= 255 /\ 243 <= 250 /\ 1 <> 0 ->
           q = (243, 255, 250, 0))
       /\ (243 < 243 \/ 255 < 243 \/ 250 < 243 \/ 1 = 0 ->
           q = (243, 255, 250, 1)).
Proof.
  split; [reflexivity|]. split; [reflexivity|].
  apply (remove_background_threshold_243 scenario_2x2 1 243 255 250 1);
    [reflexivity | reflexivity | lia | lia | lia].
Defined.

(** X7: background removal keeps the channels 8-bit: when every pixel of
    the input has its four channels between 0 and 255, so has every pixel
    of the output, whatever the background colour and tolerance. *)
Theorem remove_background_keeps_8bit
    (img : Image) (bg : Z * Z * Z) (tol : Z) :
  wf_image img ->
  Forall pixel_8bit (getdata img) ->
  exists out : Image,
    remove_background_to_alpha img bg tol = Ok out
    /\ Forall pixel_8bit (getdata out).
Proof.
  intros Hwf Hrange. eexists. split; [by apply remove_background_to_alpha_fmap|].
  unfold getdata in *. cbn [size im]. apply Forall_fmap.
  eapply Forall_impl; [exact Hrange|]. intros p Hp. simpl.
  destruct (is_background bg tol p) eqn:Hbg.
  - rewrite (remove_background_pixel_hit _ _ _ Hbg).
    unfold pixel_8bit in *. simpl. lia.
  - by rewrite (remove_background_pixel_miss _ _ _ Hbg).
Qed.

Lemma remove_background_keeps_8bit_witness :
  wf_image scenario_2x2
  /\ Forall pixel_8bit (getdata scenario_2x2)
  /\ exists out : Image,
       remove_background_to_alpha scenario_2x2 default_bg default_tol = Ok out
       /\ Forall pixel_8bit (getdata out).
Proof.
  assert (Forall pixel_8bit (getdata scenario_2x2)) as Hrange.
  { repeat constructor; simpl; lia. }
  split; [reflexivity|]. split; [exact Hrange|].
  apply (remove_background_keeps_8bit scenario_2x2 default_bg default_tol);
    [reflexivity | exact Hrange].
Defined.

(** ** Further properties of the silhouette pass *)

Lemma silhouette_pixel_fixed (p : pixel) :
  silhouette_pixel p = p
  <-> p = (255, 255, 255, 0) \/ p = (255, 255, 255, 255).
Proof.
  split.
  - intros <-. apply silhouette_pixel_cases.
  - by intros [-> | ->].
Qed.

(** X8: the silhouette pass returns its input unchanged exactly when every
    pixel of the input is already (255,255,255,0) or (255,255,255,255). *)
Theorem to_white_silhouette_fixed_point (img : Image) :
  wf_image img ->
  to_white_silhouette img = Ok img
  <-> Forall (fun p => p = (255, 255, 255, 0) \/ p = (255, 255, 255, 255))
        (getdata img).
Proof.
  intros Hwf. rewrite to_white_silhouette_fmap by done.
  rewrite Ok_image_inj, fmap_fixed_Forall. unfold getdata.
  apply Forall_iff. intros p. apply silhouette_pixel_fixed.
Qed.

Lemma to_white_silhouette_fixed_point_witness :
  wf_image scenario_silhouette
  /\ (to_white_silhouette scenario_silhouette = Ok scenario_silhouette
      <-> Forall (fun p => p = (255, 255, 255, 0) \/ p = (255, 255, 255, 255))
            (getdata scenario_silhouette)).
Proof.
  split; [reflexivity|].
  apply (to_white_silhouette_fixed_point scenario_silhouette). reflexivity.
Defined.

Lemma replicate_fmap_Forall {A B : Type} (f : A -> B) (x : B) (l : list A) :
  replicate (length l) x = f <$> l <-> Forall (fun p => f p = x) l.
Proof.
  induction l as [|p l IH]; cbn [length replicate fmap list_fmap].
  - split; [constructor|done].
  - rewrite Forall_cons, <- IH. split.
    + by intros [= <- ?].
    + by intros [-> ->].
Qed.

Lemma silhouette_of_glyph_pixel_transparent
    (bg : Z * Z * Z) (tol : Z) (p : pixel) :
  silhouette_pixel (remove_background_pixel bg tol p) = (255, 255, 255, 0)
  <-> alpha p = 0 \/ is_background bg tol p = true.
Proof.
  destruct (is_background bg tol p) eqn:Hbg.
  - rewrite (remove_background_pixel_hit _ _ _ Hbg).
    rewrite silhouette_pixel_alpha0 by done. tauto.
  - rewrite (remove_background_pixel_miss _ _ _ Hbg).
    destruct (Z.eq_dec (alpha p) 0) as [Ha|Ha].
    + rewrite silhouette_pixel_alpha0 by done. tauto.
    + rewrite silhouette_pixel_visible by done. split; [done|].
      by intros [?|?].
Qed.

(** X9: the order of the two passes matters.  Background removal with the
    default colour and tolerance applied to a silhouette clears it
    completely, every pixel of the result being (255,255,255,0); this is
    the silhouette the driver's order computes exactly when every pixel of
    the input has alpha 0 or passes the background test, so the two orders
    differ on every image with a visible pixel that is not near white. *)
Theorem silhouette_then_remove_background_clears_all (img : Image) :
  wf_image img ->
  exists white out glyph white' : Image,
    to_white_silhouette img = Ok white
    /\ remove_background_to_alpha white default_bg default_tol = Ok out
    /\ size out = size img
    /\ getdata out = replicate (length (getdata img)) (255, 255, 255, 0)
    /\ remove_background_to_alpha img default_bg default_tol = Ok glyph
    /\ to_white_silhouette glyph = Ok white'
    /\ (out = white'
        <-> Forall (fun p => alpha p = 0
                             \/ is_background default_bg default_tol p = true)
              (getdata img)).
Proof.
  intros Hwf.
  assert (remove_background_pixel default_bg default_tol
            <$> (silhouette_pixel <$> im img)
          = replicate (length (im img)) (255, 255, 255, 0)) as Hclear.
  { rewrite <- list_fmap_compose. symmetry. apply replicate_fmap_Forall.
    apply Forall_forall. intros p _. unfold compose.
    by destruct (silhouette_pixel_cases p) as [-> | ->]. }
  eexists _, _, _, _. split; [by apply to_white_silhouette_fmap|].
  split.
  { apply remove_background_to_alpha_fmap. by apply wf_image_fmap. }
  unfold getdata. cbn [size im]. split; [done|]. split; [exact Hclear|].
  split; [by apply remove_background_to_alpha_fmap|].
  split.
  { apply to_white_silhouette_fmap. by apply wf_image_fmap. }
  cbn [size im]. rewrite Hclear, <- list_fmap_compose.
  split.
  - intros [= Heq]. apply replicate_fmap_Forall in Heq.
    eapply Forall_impl; [exact Heq|]. intros p Hp.
    by apply (silhouette_of_glyph_pixel_transparent default_bg default_tol).
  - intros Hall. do 2 f_equal. apply replicate_fmap_Forall.
    eapply Forall_impl; [exact Hall|]. intros p Hp.
    by apply (silhouette_of_glyph_pixel_transparent default_bg default_tol).
Qed.

Lemma silhouette_then_remove_background_clears_all_witness :
  wf_image scenario_2x1
  /\ exists white out glyph white' : Image,
       to_white_silhouette scenario_2x1 = Ok white
       /\ remove_background_to_alpha white default_bg default_tol = Ok out
       /\ size out = size scenario_2x1
       /\ getdata out
          = replicate (length (getdata scenario_2x1)) (255, 255, 255, 0)
       /\ remove_background_to_alpha scenario_2x1 default_bg default_tol
          = Ok glyph
       /\ to_white_silhouette glyph = Ok white'
       /\ (out = white'
           <-> Forall (fun p => alpha p = 0
                                \/ is_background default_bg default_tol p = true)
                 (getdata scenario_2x1)).
Proof.
  split; [reflexivity|].
  apply (silhouette_then_remove_background_clears_all scenario_2x1).
  reflexivity.
Defined.

(** ** Further properties of the driver *)

Lemma argv_has_source (argv : list string) (src : string) :
  argv !! 1%nat = Some src -> (length argv <? 2)%nat = false.
Proof.
  intros Hsrc. apply lookup_lt_Some in Hsrc. apply Nat.ltb_ge. lia.
Qed.

(** The only exception a pass can raise is the one of [putdata]. *)
Lemma remove_background_to_alpha_raises
    (img : Image) (bg : Z * Z * Z) (tol : Z) (e : exn) :
  remove_background_to_alpha img bg tol = Raise e ->
  e = TypeError "too many data entries".
Proof.
  unfold remove_background_to_alpha, putdata.
  destruct (_ <? _)%nat; [by intros [= <-]|done].
Qed.

Lemma to_white_silhouette_raises (img : Image) (e : exn) :
  to_white_silhouette img = Raise e ->
  e = TypeError "too many data entries".
Proof.
  unfold to_white_silhouette, putdata.
  destruct (_ <? _)%nat; [by intros [= <-]|done].
Qed.

Section DriverRuns.
Variable file : Type.
Variable decode : file -> option Image.
Variable encode_png : Image -> file.
Variable dirname : string -> string.
Variable join : string -> string -> string.
Variable writable : string -> bool.
Variable isdir : string -> bool.
Variable identified : file -> bool.

(** X10: given a source path whose file decodes to an image, and two
    writable targets, the driver returns normally with exit status 0; it
    has stored the glyph under [icon-glyph.png] and then its silhouette
    under [icon-glyph-white.png] in the directory of the source, printed
    nothing and opened the source only. *)
Theorem main_success
    (argv : list string) (w : world file) (src : string) (f : file)
    (base : Image) :
  argv !! 1%nat = Some src ->
  fs w !! src = Some f ->
  decode f = Some base ->
  wf_image base ->
  writable (join (dirname src) "icon-glyph.png") = true ->
  writable (join (dirname src) "icon-glyph-white.png") = true ->
  exists glyph white : Image,
    remove_background_to_alpha base default_bg default_tol = Ok glyph
    /\ to_white_silhouette glyph = Ok white
    /\ main file decode encode_png dirname join writable isdir identified argv w
       = (Ok tt,
          mkWorld (<[join (dirname src) "icon-glyph-white.png" := encode_png white]>
                     (<[join (dirname src) "icon-glyph.png" := encode_png glyph]>
                        (fs w)))
                  (stdout w) (opened w ++ [src]))
    /\ exit_status (main file decode encode_png dirname join writable
        isdir identified argv w).1
       = 0.
Proof.
  intros Hsrc Hf Hdec Hwf Hw1 Hw2.
  assert (2 <= length argv)%nat as Hlen.
  { apply lookup_lt_Some in Hsrc. lia. }
  destruct (main_writes_both file decode encode_png dirname join writable
      isdir identified
              argv w src f base Hlen Hsrc Hf Hdec Hwf Hw1 Hw2)
    as (glyph & white & Hglyph & Hwhite & Hrun).
  exists glyph, white. by rewrite Hrun.
Qed.


(** X12: when the glyph target cannot be written the driver stops there:
    it ends with [PermissionError] on that path and exit status 1, no file
    has been written, and the silhouette target is not attempted. *)
Theorem main_glyph_unwritable
    (argv : list string) (w : world file) (src : string) (f : file)
    (base : Image) :
  argv !! 1%nat = Some src ->
  fs w !! src = Some f ->
  decode f = Some base ->
  wf_image base ->
  writable (join (dirname src) "icon-glyph.png") = false ->
  main file decode encode_png dirname join writable isdir identified argv w
  = (Raise (PermissionError (join (dirname src) "icon-glyph.png")),
     mkWorld (fs w) (stdout w) (opened w ++ [src]))
  /\ exit_status (main file decode encode_png dirname join writable
      isdir identified argv w).1
     = 1.
Proof.
  intros Hsrc Hf Hdec Hwf Hw1. pose proof (argv_has_source _ _ Hsrc) as Hlen.
  pose proof (remove_background_to_alpha_fmap base default_bg default_tol Hwf)
    as Hglyph.
  rewrite (main_after_open file decode encode_png dirname join writable
             isdir identified argv w src f base Hsrc Hf Hdec).
  unfold mbind, M_bind, bind, lift, save.
  rewrite Hglyph, Hw1. auto.
Qed.

(** X13: when only the silhouette target cannot be written the driver ends
    with [PermissionError] on that path and exit status 1, and the glyph
    file written before stays: there is no clean-up. *)
Theorem main_white_unwritable
    (argv : list string) (w : world file) (src : string) (f : file)
    (base : Image) :
  argv !! 1%nat = Some src ->
  fs w !! src = Some f ->
  decode f = Some base ->
  wf_image base ->
  writable (join (dirname src) "icon-glyph.png") = true ->
  writable (join (dirname src) "icon-glyph-white.png") = false ->
  exists glyph : Image,
    remove_background_to_alpha base default_bg default_tol = Ok glyph
    /\ main file decode encode_png dirname join writable isdir identified argv w
       = (Raise (PermissionError (join (dirname src) "icon-glyph-white.png")),
          mkWorld (<[join (dirname src) "icon-glyph.png" := encode_png glyph]>
                     (fs w))
                  (stdout w) (opened w ++ [src]))
    /\ exit_status (main file decode encode_png dirname join writable
        isdir identified argv w).1
       = 1.
Proof.
  intros Hsrc Hf Hdec Hwf Hw1 Hw2. pose proof (argv_has_source _ _ Hsrc) as Hlen.
  pose proof (remove_background_to_alpha_fmap base default_bg default_tol Hwf)
    as Hglyph.
  pose proof (to_white_silhouette_fmap _
                (wf_image_fmap base
                   (remove_background_pixel default_bg default_tol) Hwf))
    as Hwhite.
  eexists. split; [exact Hglyph|].
  rewrite (main_after_open file decode encode_png dirname join writable
             isdir identified argv w src f base Hsrc Hf Hdec).
  unfold mbind, M_bind, bind, lift, save.
  rewrite Hglyph, Hw1. cbn [fs stdout opened].
  rewrite Hwhite, Hw2. auto.
Qed.

(** X14: the driver looks at [sys.argv[1]] only: two argument lists with
    the same second entry (or both without one) give the same run, so the
    program name and any further arguments are ignored. *)
Theorem main_reads_first_argument_only
    (argv argv' : list string) (w : world file) :
  argv !! 1%nat = argv' !! 1%nat ->
  main file decode encode_png dirname join writable isdir identified argv w
  = main file decode encode_png dirname join writable isdir identified argv' w.
Proof.
  intros Heq.
  assert ((length argv <? 2)%nat = (length argv' <? 2)%nat) as Hlen.
  { destruct (argv !! 1%nat) as [src|] eqn:Hsrc.
    - symmetry in Heq. by rewrite (argv_has_source _ _ Hsrc),
        (argv_has_source _ _ Heq).
    - symmetry in Heq. apply lookup_ge_None in Hsrc, Heq.
      destruct (Nat.ltb_spec (length argv) 2), (Nat.ltb_spec (length argv') 2);
        (done || lia). }
  unfold_main. by rewrite Hlen, Heq.
Qed.

(** X15: whatever happens in a run with a source path, a file other than
    the two targets is left as it was, nothing is printed, the source is
    the only path opened, and the run does not end with [SystemExit]. *)
Theorem main_touches_only_targets
    (argv : list string) (w : world file) (src path : string) :
  argv !! 1%nat = Some src ->
  path <> join (dirname src) "icon-glyph.png" ->
  path <> join (dirname src) "icon-glyph-white.png" ->
  fs (main file decode encode_png dirname join writable
      isdir identified argv w).2 !! path
  = fs w !! path
  /\ stdout (main file decode encode_png dirname join writable
      isdir identified argv w).2
     = stdout w
  /\ opened (main file decode encode_png dirname join writable
      isdir identified argv w).2
     = opened w ++ [src]
  /\ forall code : Z,
       (main file decode encode_png dirname join writable
           isdir identified argv w).1
       <> Raise (SystemExit code).
Proof.
  intros Hsrc Hp1 Hp2. pose proof (argv_has_source _ _ Hsrc) as Hlen.
  unfold_main. rewrite Hlen, Hsrc. cbn [fs stdout opened].
  destruct (fs w !! src) as [f|]; [|by destruct (isdir src)].
  destruct (decode f) as [base|] eqn:Hdec.
  2:{ destruct (identified f); [by rewrite Hdec|done]. }
  rewrite Hdec.
  destruct (remove_background_to_alpha base default_bg default_tol)
    as [glyph|e] eqn:Hglyph.
  2:{ apply remove_background_to_alpha_raises in Hglyph as ->. done. }
  destruct (writable (join (dirname src) "icon-glyph.png")); [|done].
  cbn [fs stdout opened].
  destruct (to_white_silhouette glyph) as [white|e] eqn:Hwhite.
  - destruct (writable (join (dirname src) "icon-glyph-white.png"));
      cbn [fst snd fs stdout opened];
      by rewrite ?lookup_insert_ne by done.
  - apply to_white_silhouette_raises in Hwhite as ->.
    cbn [fst snd fs stdout opened]. by rewrite lookup_insert_ne by done.
Qed.
End DriverRuns.

Lemma main_success_witness :
  exists glyph white : Image,
    remove_background_to_alpha scenario_2x1 default_bg default_tol = Ok glyph
    /\ to_white_silhouette glyph = Ok white
    /\ main Image demo_decode demo_encode demo_dirname demo_join demo_writable
        demo_isdir demo_identified
         demo_argv demo_world
       = (Ok tt,
          mkWorld (<["icon-glyph-white.png" := white]>
                     (<["icon-glyph.png" := glyph]> (fs demo_world)))
                  [] ["icon.png"])
    /\ exit_status
         (main Image demo_decode demo_encode demo_dirname demo_join
            demo_writable
                demo_isdir demo_identified demo_argv demo_world).1 = 0.
Proof.
  apply (main_success Image demo_decode demo_encode demo_dirname demo_join
           demo_writable
               demo_isdir demo_identified demo_argv demo_world "icon.png" scenario_2x1
           scenario_2x1); reflexivity.
Defined.


Lemma main_glyph_unwritable_witness :
  main Image demo_decode demo_encode demo_dirname demo_join demo_read_only
      demo_isdir demo_identified
    demo_argv demo_world
  = (Raise (PermissionError "icon-glyph.png"),
     mkWorld (fs demo_world) [] ["icon.png"])
  /\ exit_status
       (main Image demo_decode demo_encode demo_dirname demo_join
          demo_read_only demo_isdir demo_identified demo_argv demo_world).1 = 1.
Proof.
  apply (main_glyph_unwritable Image demo_decode demo_encode demo_dirname
           demo_join demo_read_only
               demo_isdir demo_identified demo_argv demo_world "icon.png"
           scenario_2x1 scenario_2x1); reflexivity.
Defined.

Lemma main_white_unwritable_witness :
  exists glyph : Image,
    remove_background_to_alpha scenario_2x1 default_bg default_tol = Ok glyph
    /\ main Image demo_decode demo_encode demo_dirname demo_join
         demo_glyph_only demo_isdir demo_identified demo_argv demo_world
       = (Raise (PermissionError "icon-glyph-white.png"),
          mkWorld (<["icon-glyph.png" := glyph]> (fs demo_world))
                  [] ["icon.png"])
    /\ exit_status
         (main Image demo_decode demo_encode demo_dirname demo_join
            demo_glyph_only
                demo_isdir demo_identified demo_argv demo_world).1 = 1.
Proof.
  apply (main_white_unwritable Image demo_decode demo_encode demo_dirname
           demo_join demo_glyph_only
               demo_isdir demo_identified demo_argv demo_world "icon.png"
           scenario_2x1 scenario_2x1); reflexivity.
Defined.

Lemma main_reads_first_argument_only_witness :
  main Image demo_decode demo_encode demo_dirname demo_join demo_writable
      demo_isdir demo_identified
    demo_argv demo_world
  = main Image demo_decode demo_encode demo_dirname demo_join demo_writable
      demo_isdir demo_identified
      ["./make_glyphs.py"; "icon.png"; "--force"; "other.png"] demo_world.
Proof.
  apply (main_reads_first_argument_only Image demo_decode demo_encode
           demo_dirname demo_join demo_writable
               demo_isdir demo_identified demo_argv
           ["./make_glyphs.py"; "icon.png"; "--force"; "other.png"]
           demo_world).
  reflexivity.
Defined.

Lemma main_touches_only_targets_witness :
  fs (main Image demo_decode demo_encode demo_dirname demo_join demo_writable
      demo_isdir demo_identified
        demo_argv demo_world).2 !! "icon.png"
  = fs demo_world !! "icon.png"
  /\ stdout (main Image demo_decode demo_encode demo_dirname demo_join
               demo_writable demo_isdir demo_identified demo_argv demo_world).2
     = stdout demo_world
  /\ opened (main Image demo_decode demo_encode demo_dirname demo_join
               demo_writable demo_isdir demo_identified demo_argv demo_world).2
     = opened demo_world ++ ["icon.png"]
  /\ forall code : Z,
       (main Image demo_decode demo_encode demo_dirname demo_join
          demo_writable demo_isdir demo_identified demo_argv demo_world).1
       <> Raise (SystemExit code).
Proof.
  apply (main_touches_only_targets Image demo_decode demo_encode demo_dirname
           demo_join demo_writable
               demo_isdir demo_identified demo_argv demo_world "icon.png" "icon.png");
    [reflexivity | discriminate | discriminate].
Defined.

(** ** Running the driver on its own output *)

Lemma remove_background_to_alpha_again
    (img : Image) (bg : Z * Z * Z) (tol : Z) :
  wf_image img ->
  remove_background_to_alpha
    (mkImage (size img) (remove_background_pixel bg tol <$> im img)) bg tol
  = Ok (mkImage (size img) (remove_background_pixel bg tol <$> im img)).
Proof.
  intros Hwf.
  rewrite remove_background_to_alpha_fmap by (by apply wf_image_fmap).
  cbn [size im]. do 2 f_equal.
  rewrite <- list_fmap_compose. apply list_fmap_ext.
  intros _ p _. apply remove_background_pixel_twice.
Qed.

Section DriverRerun.
Variable file : Type.
Variable decode : file -> option Image.
Variable encode_png : Image -> file.
Variable dirname : string -> string.
Variable join : string -> string -> string.
Variable writable : string -> bool.
Variable isdir : string -> bool.
Variable identified : file -> bool.

(** X16: after a successful run, running the driver again on the glyph file
    it wrote changes no file, provided that decoding the written glyph gives
    the glyph back, that the two targets are different paths and that the
    glyph file lies in the directory [dirname] reports for the source: the
    second run stores the same glyph and the same silhouette again. *)
Theorem main_rerun_on_glyph
    (argv argv' : list string) (w : world file) (src : string) (f : file)
    (base : Image) :
  argv !! 1%nat = Some src ->
  fs w !! src = Some f ->
  decode f = Some base ->
  wf_image base ->
  writable (join (dirname src) "icon-glyph.png") = true ->
  writable (join (dirname src) "icon-glyph-white.png") = true ->
  join (dirname src) "icon-glyph.png" <> join (dirname src) "icon-glyph-white.png" ->
  (forall glyph : Image,
     remove_background_to_alpha base default_bg default_tol = Ok glyph ->
     decode (encode_png glyph) = Some glyph) ->
  dirname (join (dirname src) "icon-glyph.png") = dirname src ->
  argv' !! 1%nat = Some (join (dirname src) "icon-glyph.png") ->
  main file decode encode_png dirname join writable isdir identified argv'
    (main file decode encode_png dirname join writable
        isdir identified argv w).2
  = (Ok tt,
     mkWorld
       (fs (main file decode encode_png dirname join writable
           isdir identified argv w).2)
       (stdout w)
       (opened w ++ [src; join (dirname src) "icon-glyph.png"])).
Proof.
  intros Hsrc Hf Hdec Hwf Hw1 Hw2 Hne Hcodec Hdir Hsrc'.
  assert (2 <= length argv)%nat as Hlen.
  { apply lookup_lt_Some in Hsrc. lia. }
  assert (2 <= length argv')%nat as Hlen'.
  { apply lookup_lt_Some in Hsrc'. lia. }
  destruct (main_writes_both file decode encode_png dirname join writable
      isdir identified
              argv w src f base Hlen Hsrc Hf Hdec Hwf Hw1 Hw2)
    as (glyph & white & Hglyph & Hwhite & Hrun).
  rewrite Hrun. cbn [snd fs].
  specialize (Hcodec glyph Hglyph).
  rewrite (remove_background_to_alpha_fmap base _ _ Hwf) in Hglyph.
  injection Hglyph as <-.
  set (glyph := mkImage (size base)
                  (remove_background_pixel default_bg default_tol <$> im base))
    in *.
  set (gp := join (dirname src) "icon-glyph.png") in *.
  set (wp := join (dirname src) "icon-glyph-white.png") in *.
  set (w1 := mkWorld (<[wp := encode_png white]> (<[gp := encode_png glyph]> (fs w)))
               (stdout w) (opened w ++ [src])).
  assert (fs w1 !! gp = Some (encode_png glyph)) as Hf1.
  { cbn [fs w1]. rewrite lookup_insert_ne by done. apply lookup_insert_eq. }
  assert (wf_image glyph) as Hwf1 by (by apply wf_image_fmap).
  destruct (main_writes_both file decode encode_png dirname join writable
      isdir identified
              argv' w1 gp (encode_png glyph) glyph Hlen' Hsrc' Hf1
              Hcodec Hwf1)
    as (glyph' & white' & Hglyph' & Hwhite' & Hrun').
  { by rewrite Hdir. }
  { by rewrite Hdir. }
  rewrite Hrun'. rewrite Hdir. fold gp wp.
  unfold glyph in Hglyph'.
  rewrite (remove_background_to_alpha_again base _ _ Hwf) in Hglyph'.
  injection Hglyph' as <-. fold glyph in Hwhite'.
  rewrite Hwhite in Hwhite'. injection Hwhite' as <-.
  cbn [fs stdout opened w1]. rewrite <- app_assoc. cbn [app].
  do 2 f_equal.
  rewrite (insert_id _ gp (encode_png glyph)).
  - apply insert_id, lookup_insert_eq.
  - rewrite lookup_insert_ne by done. apply lookup_insert_eq.
Qed.
End DriverRerun.

Lemma main_rerun_on_glyph_witness :
  main Image demo_decode demo_encode demo_dirname demo_join demo_writable
      demo_isdir demo_identified
    ["make_glyphs.py"; "icon-glyph.png"]
    (main Image demo_decode demo_encode demo_dirname demo_join demo_writable
        demo_isdir demo_identified
       demo_argv demo_world).2
  = (Ok tt,
     mkWorld
       (fs (main Image demo_decode demo_encode demo_dirname demo_join
              demo_writable demo_isdir demo_identified demo_argv demo_world).2)
       [] ["icon.png"; "icon-glyph.png"]).
Proof.
  apply (main_rerun_on_glyph Image demo_decode demo_encode demo_dirname
           demo_join demo_writable demo_isdir demo_identified demo_argv
           ["make_glyphs.py"; "icon-glyph.png"] demo_world "icon.png"
           scenario_2x1 scenario_2x1);
    [reflexivity | reflexivity | reflexivity | reflexivity | reflexivity
    | reflexivity | discriminate | intros glyph _; reflexivity
    | reflexivity | reflexivity].
Defined.

Section DriverOverwrite.
Variable file : Type.
Variable decode : file -> option Image.
Variable encode_png : Image -> file.
Variable dirname : string -> string.
Variable join : string -> string -> string.
Variable writable : string -> bool.
Variable isdir : string -> bool.
Variable identified : file -> bool.

(** X17: nothing protects the input: when the source is itself the file
    [icon-glyph.png] of its directory, a successful run replaces it by the
    glyph computed from it. *)
Theorem main_overwrites_source_named_glyph
    (argv : list string) (w : world file) (src : string) (f : file)
    (base : Image) :
  argv !! 1%nat = Some src ->
  fs w !! src = Some f ->
  decode f = Some base ->
  wf_image base ->
  writable (join (dirname src) "icon-glyph.png") = true ->
  writable (join (dirname src) "icon-glyph-white.png") = true ->
  join (dirname src) "icon-glyph.png" = src ->
  join (dirname src) "icon-glyph-white.png" <> src ->
  exists glyph : Image,
    remove_background_to_alpha base default_bg default_tol = Ok glyph
    /\ (main file decode encode_png dirname join writable
        isdir identified argv w).1 = Ok tt
    /\ fs (main file decode encode_png dirname join writable
        isdir identified argv w).2 !! src
       = Some (encode_png glyph).
Proof.
  intros Hsrc Hf Hdec Hwf Hw1 Hw2 Hsame Hother.
  assert (2 <= length argv)%nat as Hlen.
  { apply lookup_lt_Some in Hsrc. lia. }
  destruct (main_writes_both file decode encode_png dirname join writable
      isdir identified
              argv w src f base Hlen Hsrc Hf Hdec Hwf Hw1 Hw2)
    as (glyph & white & Hglyph & Hwhite & Hrun).
  exists glyph. split; [done|]. rewrite Hrun. cbn [fst snd fs].
  split; [done|].
  rewrite lookup_insert_ne by done. rewrite Hsame. apply lookup_insert_eq.
Qed.
End DriverOverwrite.

Lemma main_overwrites_source_named_glyph_witness :
  exists glyph : Image,
    remove_background_to_alpha scenario_2x1 default_bg default_tol = Ok glyph
    /\ (main Image demo_decode demo_encode demo_dirname demo_join demo_writable
        demo_isdir demo_identified
          ["make_glyphs.py"; "icon-glyph.png"] demo_glyph_world).1 = Ok tt
    /\ fs (main Image demo_decode demo_encode demo_dirname demo_join
             demo_writable
                 demo_isdir demo_identified ["make_glyphs.py"; "icon-glyph.png"]
             demo_glyph_world).2 !! "icon-glyph.png"
       = Some (demo_encode glyph).
Proof.
  apply (main_overwrites_source_named_glyph Image demo_decode demo_encode
           demo_dirname demo_join demo_writable demo_isdir demo_identified
           ["make_glyphs.py"; "icon-glyph.png"] demo_glyph_world
           "icon-glyph.png" scenario_2x1 scenario_2x1);
    [reflexivity | reflexivity | reflexivity | reflexivity | reflexivity
    | reflexivity | reflexivity | discriminate].
Defined.

(** ** The silhouette file the driver writes *)

Section DriverPipeline.
Variable file : Type.
Variable decode : file -> option Image.
Variable encode_png : Image -> file.
Variable dirname : string -> string.
Variable join : string -> string -> string.
Variable writable : string -> bool.
Variable isdir : string -> bool.
Variable identified : file -> bool.

(** C10: end to end, for a source that decodes to the buffer [base] and two
    writable targets, the driver returns normally and the silhouette it
    writes to [icon-glyph-white.png] is that of the glyph it writes to
    [icon-glyph.png]; for the pixel at any position of [base], the written
    silhouette holds (255,255,255,255) there exactly when the input alpha
    is not 0 and some RGB channel is further than 12 from 255, and
    (255,255,255,0) in every other case. *)
Theorem main_pipeline_pixel
    (argv : list string) (w : world file) (src : string) (f : file)
    (base : Image) (i : nat) (r g b a : Z) :
  argv !! 1%nat = Some src ->
  fs w !! src = Some f ->
  decode f = Some base ->
  wf_image base ->
  writable (join (dirname src) "icon-glyph.png") = true ->
  writable (join (dirname src) "icon-glyph-white.png") = true ->
  getdata base !! i = Some (r, g, b, a) ->
  exists (glyph white : Image) (q : pixel),
    remove_background_to_alpha base default_bg default_tol = Ok glyph
    /\ to_white_silhouette glyph = Ok white
    /\ main file decode encode_png dirname join writable isdir identified
         argv w
       = (Ok tt,
          mkWorld (<[join (dirname src) "icon-glyph-white.png" := encode_png white]>
                     (<[join (dirname src) "icon-glyph.png" := encode_png glyph]>
                        (fs w)))
                  (stdout w) (opened w ++ [src]))
    /\ fs (main file decode encode_png dirname join writable isdir identified
             argv w).2 !! join (dirname src) "icon-glyph-white.png"
       = Some (encode_png white)
    /\ getdata white !! i = Some q
    /\ (q = (255, 255, 255, 255) <->
        a <> 0 /\ (12 < Z.abs (r - 255) \/ 12 < Z.abs (g - 255)
                   \/ 12 < Z.abs (b - 255)))
    /\ (~ (a <> 0 /\ (12 < Z.abs (r - 255) \/ 12 < Z.abs (g - 255)
                      \/ 12 < Z.abs (b - 255))) ->
        q = (255, 255, 255, 0)).
Proof.
  intros Hsrc Hf Hdec Hwf Hw1 Hw2 Hi.
  assert (2 <= length argv)%nat as Hlen.
  { apply lookup_lt_Some in Hsrc. lia. }
  destruct (main_writes_both file decode encode_png dirname join writable
              isdir identified argv w src f base Hlen Hsrc Hf Hdec Hwf Hw1 Hw2)
    as (glyph & white & Hglyph & Hwhite & Hrun).
  destruct (pipeline_pixel base i r g b a Hwf Hi)
    as (glyph' & white' & q & Hglyph' & Hwhite' & Hq & Hiff & Hother).
  rewrite Hglyph in Hglyph'. injection Hglyph' as <-.
  rewrite Hwhite in Hwhite'. injection Hwhite' as <-.
  exists glyph, white, q. rewrite Hrun. cbn [snd fs].
  split; [done|]. split; [done|]. split; [done|].
  split; [apply lookup_insert_eq|]. split; [exact Hq|].
  split; [exact Hiff | exact Hother].
Qed.
End DriverPipeline.

Lemma main_pipeline_pixel_witness :
  exists (glyph white : Image) (q : pixel),
    remove_background_to_alpha scenario_2x1 default_bg default_tol = Ok glyph
    /\ to_white_silhouette glyph = Ok white
    /\ main Image demo_decode demo_encode demo_dirname demo_join demo_writable
         demo_isdir demo_identified demo_argv demo_world
       = (Ok tt,
          mkWorld (<["icon-glyph-white.png" := demo_encode white]>
                     (<["icon-glyph.png" := demo_encode glyph]> (fs demo_world)))
                  [] ["icon.png"])
    /\ fs (main Image demo_decode demo_encode demo_dirname demo_join
             demo_writable demo_isdir demo_identified demo_argv
             demo_world).2 !! "icon-glyph-white.png"
       = Some (demo_encode white)
    /\ getdata white !! 1%nat = Some q
    /\ (q = (255, 255, 255, 255) <->
        255 <> 0 /\ (12 < Z.abs (10 - 255) \/ 12 < Z.abs (20 - 255)
                     \/ 12 < Z.abs (30 - 255)))
    /\ (~ (255 <> 0 /\ (12 < Z.abs (10 - 255) \/ 12 < Z.abs (20 - 255)
                        \/ 12 < Z.abs (30 - 255))) ->
        q = (255, 255, 255, 0)).
Proof.
  apply (main_pipeline_pixel Image demo_decode demo_encode demo_dirname
           demo_join demo_writable demo_isdir demo_identified demo_argv
           demo_world "icon.png" scenario_2x1 scenario_2x1 1 10 20 30 255);
    reflexivity.
Defined.

(** A source whose header is identified but whose pixel data are broken is
    opened, and the run ends in the first pass. *)
Example main_truncated_source :
  main Image (fun _ => None) demo_encode demo_dirname demo_join demo_writable
    demo_isdir demo_identified demo_argv demo_world
  = (Raise OSError, mkWorld (fs demo_world) [] ["icon.png"]).
Proof. reflexivity. Qed.
